(** * The Advion CMS export shim ([advion_wrapper.cpp])

  The file under study is a table of [extern "C"] functions over the
  vendor's mass-spectrometer SDK.  The SDK itself is a closed binary: here
  it is an interface ([Advion.SDK]) whose methods are answered by an
  arbitrary handler over an arbitrary state, and every theorem about the
  shim holds for all handlers.  What the shim adds on its own is C++
  object lifetime: two throwing [new] expressions, one [new(std::nothrow)]
  and one [delete]; these are written out over an explicit free store. *)

From Stdlib Require Import ZArith NArith PArith List String Lia.
Import ListNotations.

Set Implicit Arguments.

(* ------------------------------------------------------------------ *)
(** ** C++ values and the free store *)
(* ------------------------------------------------------------------ *)
Module Cxx.

(** A pointer is an address; [#define NULL nullptr] is address zero.  A
    pointer to live storage is [N.pos a]: the allocation functions answer
    a [positive], so "operator new never yields null on success" holds by
    typing. *)
Definition ptr : Type := N.
Definition nullptr : ptr := 0%N.

Definition is_null (p : ptr) : bool :=
  match p with
  | N0 => true
  | Npos _ => false
  end.

(** [int] and [const char *] as they cross the boundary.  The shim does no
    arithmetic on either, so no wrap-around is ever exercised. *)
Definition c_int : Type := Z.
Definition c_str : Type := string.

Inductive exception : Type :=
| std_bad_alloc
| sdk_exception (what : string).

(** How a call ends: it returns, a C++ exception leaves it, or the process
    dies (undefined behaviour inside the vendor binary). *)
Inductive outcome (A : Type) : Type :=
| Returns (a : A)
| Throws (e : exception)
| Crashes.
Arguments Throws {A} e.
Arguments Crashes {A}.

(** The allocator behind [operator new] and [operator delete]. *)
Class Runtime : Type := {
  Heap : Type;
  allocate : N -> Heap -> option (positive * Heap);
  deallocate : positive -> Heap -> Heap
}.

(** A pointer conversion between a derived class and its base: null stays
    null, a live address moves by whatever the layout says. *)
Definition pointer_cast (adjust : positive -> positive) (p : ptr) : ptr :=
  match p with
  | N0 => N0
  | Npos a => Npos (adjust a)
  end.

End Cxx.
Export Cxx.

(* ------------------------------------------------------------------ *)
(** ** The vendor SDK as seen from the shim *)
(* ------------------------------------------------------------------ *)
Module Advion.

(** Types declared by the vendor headers ([AdvionCMS.h], [Instrument.h],
    [DataReader.h], ...), none of which the shim inspects. *)
Class Types : Type := {
  ErrorCode : Type;          (* AdvionCMS::ErrorCode *)
  DataErrorCode : Type;      (* AdvionData::ErrorCode *)
  InstrumentSwitch : Type;
  SourceType : Type;
  NumberReadback : Type;
  BinaryReadback : Type;
  AcquisitionState : Type;
  InstrumentState : Type;
  OperationMode : Type;
  c_double : Type;
  c_float : Type
}.

Section Calls.
Context {T : Types}.

(** One constructor per vendor entry point the shim reaches, indexed by
    the C++ return type.  A member function takes its receiver first; a
    constructor or destructor takes the storage it runs on.  The vendor
    headers are not part of the source, so each entry point is given the
    parameter and return types of the export that calls it: no implicit
    conversion at the call.  What an entry point does with a receiver that
    is null or stale is for the SDK handler to say. *)
Inductive VendorCall : Type -> Type :=
(* USBInstrument / SimulatedInstrument / Instrument *)
| USBInstrument_ctor (this : ptr) : VendorCall unit
| SimulatedInstrument_ctor (this : ptr) (folder : c_str) : VendorCall unit
| Instrument_setInstrumentSwitchOn
    (this : ptr) (swtch : InstrumentSwitch) (value : bool) : VendorCall unit
| Instrument_ignoreRemainingPumpDownTime (this : ptr) : VendorCall unit
| Instrument_getPumpDownRemainingSeconds (this : ptr) : VendorCall c_int
| Instrument_getSourceType (this : ptr) : VendorCall SourceType
| Instrument_getNumberReadback
    (this : ptr) (id : NumberReadback) : VendorCall c_double
| Instrument_getBinaryReadback
    (this : ptr) (id : BinaryReadback) : VendorCall bool
(* AcquisitionManager *)
| AcquisitionManager_start
    (methodXML ionSourceXML tuneXML name folder : c_str)
  : VendorCall ErrorCode
| AcquisitionManager_startWithSwitching
    (methodXML ionSourceXML1 ionSourceXML2 tuneXML1 tuneXML2
       name folder : c_str)
  : VendorCall ErrorCode
| AcquisitionManager_stop : VendorCall ErrorCode
| AcquisitionManager_pause : VendorCall ErrorCode
| AcquisitionManager_resume : VendorCall ErrorCode
| AcquisitionManager_extend (seconds : c_int) : VendorCall c_int
| AcquisitionManager_getState : VendorCall AcquisitionState
| AcquisitionManager_getCurrentFolder : VendorCall c_str
| AcquisitionManager_getAcquisitionBinsPerAMU : VendorCall c_int
| AcquisitionManager_setAcquisitionBinsPerAMU
    (bins_per_amu : c_int) : VendorCall ErrorCode
| AcquisitionManager_getLastNumMasses : VendorCall c_int
| AcquisitionManager_getMaxNumMasses : VendorCall c_int
| AcquisitionManager_getLastSpectrumMasses (buff : ptr)
  : VendorCall ErrorCode
| AcquisitionManager_getLastSpectrumIntensities (buff : ptr)
  : VendorCall ErrorCode
(* InstrumentController *)
| InstrumentController_startController (instrument : ptr)
  : VendorCall ErrorCode
| InstrumentController_stopController : VendorCall ErrorCode
| InstrumentController_canVent : VendorCall bool
| InstrumentController_vent : VendorCall ErrorCode
| InstrumentController_canPumpDown : VendorCall bool
| InstrumentController_pumpDown : VendorCall ErrorCode
| InstrumentController_getState : VendorCall InstrumentState
| InstrumentController_getOperationMode : VendorCall OperationMode
| InstrumentController_canOperate : VendorCall bool
| InstrumentController_operate : VendorCall ErrorCode
| InstrumentController_standby : VendorCall ErrorCode
| InstrumentController_canStandby : VendorCall bool
| InstrumentController_getTuneParameters : VendorCall c_str
| InstrumentController_setTuneParameters (tune_xml : c_str)
  : VendorCall ErrorCode
| InstrumentController_getIonSourceOptimization : VendorCall c_str
| InstrumentController_setIonSourceOptimization (ion_source_xml : c_str)
  : VendorCall ErrorCode
(* AdvionData::DataReader *)
| DataReader_ctor
    (this : ptr) (path : c_str) (debugOutput decodeSpectra : bool)
  : VendorCall unit
| DataReader_dtor (this : ptr) : VendorCall unit
| DataReader_getDeltaBackgroundSpectrum (this : ptr) (intensities : ptr)
  : VendorCall DataErrorCode
| DataReader_getDeltaSpectrum
    (this : ptr) (index : c_int) (intensities : ptr)
  : VendorCall DataErrorCode
| DataReader_getSpectrum (this : ptr) (index : c_int) (intensities : ptr)
  : VendorCall DataErrorCode
| DataReader_getMasses (this : ptr) (masses : ptr)
  : VendorCall DataErrorCode
| DataReader_getNumMasses (this : ptr) : VendorCall c_int
| DataReader_getNumSpectra (this : ptr) : VendorCall c_int
| DataReader_getRetentionTimes (this : ptr) (times : ptr)
  : VendorCall DataErrorCode
| DataReader_getTIC (this : ptr) (index : c_int) : VendorCall c_float.

(** A call with its return type packed, as it is written to a log. *)
Definition logged : Type := { R : Type & VendorCall R }.
Definition log_of {R} (c : VendorCall R) : logged := existT _ R c.

End Calls.

(** An implementation of the SDK: a state (the process-wide singletons,
    the instrument, the open files, the caller's buffers) and the effect
    of each entry point on it; together with what the headers fix about
    object layout. *)
Class SDK (T : Types) : Type := {
  State : Type;
  exec : forall R, VendorCall R -> State -> outcome R * State;
  sizeof_USBInstrument : N;
  sizeof_SimulatedInstrument : N;
  sizeof_DataReader : N;
  USBInstrument_base : positive -> positive;
  SimulatedInstrument_base : positive -> positive
}.

End Advion.
Export Advion.

(* ------------------------------------------------------------------ *)
(** ** The shim: one definition per exported function *)
(* ------------------------------------------------------------------ *)
Module Wrapper.

Section Shim.
Context {T : Types} {V : SDK T} {RT : Runtime}.

(** What a call into the DLL can touch: the free store behind the shim's
    own [new]/[delete], and the state of the vendor library. *)
Record World : Type := mkWorld {
  heap : Heap;
  sdk : State
}.

(** The result of running a piece of the shim: how it ended, the world it
    left, and the vendor calls it made, oldest first. *)
Record result (A : Type) : Type := mkResult {
  outcome_of : outcome A;
  world_of : World;
  calls_of : list logged
}.

Definition M (A : Type) : Type := World -> result A.

Definition ret {A} (a : A) : M A :=
  fun w => mkResult (Returns a) w [].

(** Sequencing: an exception or a crash in [m] skips [k]. *)
Definition bind {A B} (m : M A) (k : A -> M B) : M B :=
  fun w =>
    let r := m w in
    match outcome_of r with
    | Returns a =>
        let r' := k a (world_of r) in
        mkResult (outcome_of r') (world_of r') (calls_of r ++ calls_of r')
    | Throws e => mkResult (Throws e) (world_of r) (calls_of r)
    | Crashes => mkResult Crashes (world_of r) (calls_of r)
    end.

(** [try { m } catch (...) { cleanup; throw; }] *)
Definition on_throw {A} (m : M A) (cleanup : M unit) : M A :=
  fun w =>
    let r := m w in
    match outcome_of r with
    | Throws e =>
        let r' := cleanup (world_of r) in
        mkResult (Throws e) (world_of r') (calls_of r ++ calls_of r')
    | _ => r
    end.

(** A call into the vendor library: logged, answered by the SDK, and the
    answer (value, exception or crash) handed on as it is. *)
Definition vcall {R} (c : VendorCall R) : M R :=
  fun w =>
    let a := exec c (sdk w) in
    mkResult (fst a) (mkWorld (heap w) (snd a)) [log_of c].

(** [::operator new(size)]: storage, or [std::bad_alloc]. *)
Definition operator_new (size : N) : M ptr :=
  fun w =>
    match allocate size (heap w) with
    | Some (a, h) => mkResult (Returns (Npos a)) (mkWorld h (sdk w)) []
    | None => mkResult (Throws std_bad_alloc) w []
    end.

(** [::operator new(size, std::nothrow)]: storage, or a null pointer. *)
Definition operator_new_nothrow (size : N) : M ptr :=
  fun w =>
    match allocate size (heap w) with
    | Some (a, h) => mkResult (Returns (Npos a)) (mkWorld h (sdk w)) []
    | None => mkResult (Returns nullptr) w []
    end.

(** [::operator delete(p)]: nothing for a null pointer. *)
Definition operator_delete (p : ptr) : M unit :=
  fun w =>
    match p with
    | N0 => mkResult (Returns tt) w []
    | Npos a =>
        mkResult (Returns tt) (mkWorld (deallocate a (heap w)) (sdk w)) []
    end.

Notation "x <- m ;; k" := (bind m (fun x => k))
  (at level 61, m at next level, right associativity).
Notation "m ;; k" := (bind m (fun _ => k))
  (at level 61, right associativity).

(** The expression [new C(args)]: allocate, construct in place, and give
    the storage back if the constructor throws. *)
Definition new_ (size : N) (ctor : ptr -> VendorCall unit) : M ptr :=
  p <- operator_new size ;;
  on_throw (vcall (ctor p)) (operator_delete p) ;;
  ret p.

(** The expression [new(std::nothrow) C(args)]: as above, except that a
    failed allocation makes the whole expression null and the constructor
    is not run. *)
Definition new_nothrow (size : N) (ctor : ptr -> VendorCall unit) : M ptr :=
  p <- operator_new_nothrow size ;;
  if is_null p then ret nullptr
  else (on_throw (vcall (ctor p)) (operator_delete p) ;; ret p).

(** The expression [delete p]: nothing for a null pointer; otherwise the
    destructor, then the storage is released (also when the destructor
    throws). *)
Definition delete_ (dtor : ptr -> VendorCall unit) (p : ptr) : M unit :=
  if is_null p then ret tt
  else (on_throw (vcall (dtor p)) (operator_delete p) ;; operator_delete p).

(** *** Instruments *)

Definition usb_instrument : M ptr :=
  p <- new_ sizeof_USBInstrument USBInstrument_ctor ;;
  ret (pointer_cast USBInstrument_base p).

Definition simulated_instrument (folder : c_str) : M ptr :=
  p <- new_ sizeof_SimulatedInstrument
         (fun this => SimulatedInstrument_ctor this folder) ;;
  ret (pointer_cast SimulatedInstrument_base p).

Definition set_switch (instrument : ptr) (swtch : InstrumentSwitch)
    (value : bool) : M unit :=
  vcall (Instrument_setInstrumentSwitchOn instrument swtch value).

Definition ignore_remaining_pumpdown_time (instrument : ptr) : M unit :=
  vcall (Instrument_ignoreRemainingPumpDownTime instrument).

Definition get_pumpdown_remaining_seconds (instrument : ptr) : M c_int :=
  vcall (Instrument_getPumpDownRemainingSeconds instrument).

Definition get_source (instrument : ptr) : M SourceType :=
  vcall (Instrument_getSourceType instrument).

Definition get_number_readback (instrument : ptr) (id : NumberReadback)
  : M c_double :=
  vcall (Instrument_getNumberReadback instrument id).

Definition get_binary_readback (instrument : ptr) (id : BinaryReadback)
  : M bool :=
  vcall (Instrument_getBinaryReadback instrument id).

(** *** AcquisitionManager *)

Definition start (methodXML ionSourceXML tuneXML name folder : c_str)
  : M ErrorCode :=
  vcall (AcquisitionManager_start methodXML ionSourceXML tuneXML name folder).

Definition start_with_switching
    (methodXML ionSourceXML1 ionSourceXML2 tuneXML1 tuneXML2
       name folder : c_str) : M ErrorCode :=
  vcall (AcquisitionManager_startWithSwitching methodXML
           ionSourceXML1 ionSourceXML2
           tuneXML1 tuneXML2
           name folder).

Definition stop : M ErrorCode := vcall AcquisitionManager_stop.

Definition pause : M ErrorCode := vcall AcquisitionManager_pause.

Definition resume : M ErrorCode := vcall AcquisitionManager_resume.

Definition extend (seconds : c_int) : M c_int :=
  vcall (AcquisitionManager_extend seconds).

Definition get_state : M AcquisitionState :=
  vcall AcquisitionManager_getState.

Definition get_current_folder : M c_str :=
  vcall AcquisitionManager_getCurrentFolder.

Definition get_acquisition_bins_per_amu : M c_int :=
  vcall AcquisitionManager_getAcquisitionBinsPerAMU.

Definition set_acquisition_bins_per_amu (bins_per_amu : c_int)
  : M ErrorCode :=
  vcall (AcquisitionManager_setAcquisitionBinsPerAMU bins_per_amu).

Definition get_last_num_masses : M c_int :=
  vcall AcquisitionManager_getLastNumMasses.

Definition get_max_num_masses : M c_int :=
  vcall AcquisitionManager_getMaxNumMasses.

Definition get_last_spectrum_masses (buff : ptr) : M ErrorCode :=
  vcall (AcquisitionManager_getLastSpectrumMasses buff).

Definition get_last_spectrum_intensities (buff : ptr) : M ErrorCode :=
  vcall (AcquisitionManager_getLastSpectrumIntensities buff).

(** *** InstrumentController *)

Definition start_controller (instrument : ptr) : M ErrorCode :=
  vcall (InstrumentController_startController instrument).

Definition stop_controller : M ErrorCode :=
  vcall InstrumentController_stopController.

Definition can_vent : M bool := vcall InstrumentController_canVent.

Definition vent : M ErrorCode := vcall InstrumentController_vent.

Definition can_pump_down : M bool := vcall InstrumentController_canPumpDown.

Definition pump_down : M ErrorCode := vcall InstrumentController_pumpDown.

Definition get_instrument_state : M InstrumentState :=
  vcall InstrumentController_getState.

Definition get_operation_mode : M OperationMode :=
  vcall InstrumentController_getOperationMode.

Definition can_operate : M bool := vcall InstrumentController_canOperate.

Definition operate : M ErrorCode := vcall InstrumentController_operate.

Definition standby : M ErrorCode := vcall InstrumentController_standby.

Definition can_standby : M bool := vcall InstrumentController_canStandby.

Definition get_tune_parameters : M c_str :=
  vcall InstrumentController_getTuneParameters.

Definition set_tune_parameters (tune_xml : c_str) : M ErrorCode :=
  vcall (InstrumentController_setTuneParameters tune_xml).

Definition get_ion_source_optimization : M c_str :=
  vcall InstrumentController_getIonSourceOptimization.

Definition set_ion_source_optimization (ion_source_xml : c_str)
  : M ErrorCode :=
  vcall (InstrumentController_setIonSourceOptimization ion_source_xml).

(** *** Data processing *)

(** The C++ declaration gives [debugOutput] and [decodeSpectra] the default
    [false]; through the C export all three arguments are passed.  The
    [DataReader *] converts to [void *] without moving. *)
Definition make_reader (path : c_str) (debugOutput decodeSpectra : bool)
  : M ptr :=
  dr <- new_nothrow sizeof_DataReader
          (fun this => DataReader_ctor this path debugOutput decodeSpectra) ;;
  ret dr.

Definition free_reader (dr : ptr) : M unit :=
  delete_ DataReader_dtor dr.

Definition get_delta_background_spectrum (dr : ptr) (intensities : ptr)
  : M DataErrorCode :=
  vcall (DataReader_getDeltaBackgroundSpectrum dr intensities).

Definition get_delta_spectrum (dr : ptr) (index : c_int) (intensities : ptr)
  : M DataErrorCode :=
  vcall (DataReader_getDeltaSpectrum dr index intensities).

Definition get_spectrum (dr : ptr) (index : c_int) (intensities : ptr)
  : M DataErrorCode :=
  vcall (DataReader_getSpectrum dr index intensities).

Definition get_masses (dr : ptr) (masses : ptr) : M DataErrorCode :=
  vcall (DataReader_getMasses dr masses).

Definition num_masses (dr : ptr) : M c_int :=
  vcall (DataReader_getNumMasses dr).

Definition num_spectra (dr : ptr) : M c_int :=
  vcall (DataReader_getNumSpectra dr).

Definition retention_times (dr : ptr) (times : ptr) : M DataErrorCode :=
  vcall (DataReader_getRetentionTimes dr times).

Definition get_TIC (dr : ptr) (index : c_int) : M c_float :=
  vcall (DataReader_getTIC dr index).

End Shim.

(** *** The export table *)

Section Table.
Context {T : Types}.

(** A call through the DLL's export table: the exported symbol with its
    actual arguments, indexed by the C return type. *)
Inductive Exported : Type -> Type :=
| call_usb_instrument : Exported ptr
| call_simulated_instrument (folder : c_str) : Exported ptr
| call_set_switch (instrument : ptr) (swtch : InstrumentSwitch) (value : bool)
  : Exported unit
| call_ignore_remaining_pumpdown_time (instrument : ptr) : Exported unit
| call_get_pumpdown_remaining_seconds (instrument : ptr) : Exported c_int
| call_get_source (instrument : ptr) : Exported SourceType
| call_get_number_readback (instrument : ptr) (id : NumberReadback)
  : Exported c_double
| call_get_binary_readback (instrument : ptr) (id : BinaryReadback)
  : Exported bool
| call_start (methodXML ionSourceXML tuneXML name folder : c_str)
  : Exported ErrorCode
| call_start_with_switching
    (methodXML ionSourceXML1 ionSourceXML2 tuneXML1 tuneXML2
       name folder : c_str)
  : Exported ErrorCode
| call_stop : Exported ErrorCode
| call_pause : Exported ErrorCode
| call_resume : Exported ErrorCode
| call_extend (seconds : c_int) : Exported c_int
| call_get_state : Exported AcquisitionState
| call_get_current_folder : Exported c_str
| call_get_acquisition_bins_per_amu : Exported c_int
| call_set_acquisition_bins_per_amu (bins_per_amu : c_int)
  : Exported ErrorCode
| call_get_last_num_masses : Exported c_int
| call_get_max_num_masses : Exported c_int
| call_get_last_spectrum_masses (buff : ptr) : Exported ErrorCode
| call_get_last_spectrum_intensities (buff : ptr) : Exported ErrorCode
| call_start_controller (instrument : ptr) : Exported ErrorCode
| call_stop_controller : Exported ErrorCode
| call_can_vent : Exported bool
| call_vent : Exported ErrorCode
| call_can_pump_down : Exported bool
| call_pump_down : Exported ErrorCode
| call_get_instrument_state : Exported InstrumentState
| call_get_operation_mode : Exported OperationMode
| call_can_operate : Exported bool
| call_operate : Exported ErrorCode
| call_standby : Exported ErrorCode
| call_can_standby : Exported bool
| call_get_tune_parameters : Exported c_str
| call_set_tune_parameters (tune_xml : c_str) : Exported ErrorCode
| call_get_ion_source_optimization : Exported c_str
| call_set_ion_source_optimization (ion_source_xml : c_str)
  : Exported ErrorCode
| call_make_reader (path : c_str) (debugOutput decodeSpectra : bool)
  : Exported ptr
| call_free_reader (dr : ptr) : Exported unit
| call_get_delta_background_spectrum (dr : ptr) (intensities : ptr)
  : Exported DataErrorCode
| call_get_delta_spectrum (dr : ptr) (index : c_int) (intensities : ptr)
  : Exported DataErrorCode
| call_get_spectrum (dr : ptr) (index : c_int) (intensities : ptr)
  : Exported DataErrorCode
| call_get_masses (dr : ptr) (masses : ptr) : Exported DataErrorCode
| call_num_masses (dr : ptr) : Exported c_int
| call_num_spectra (dr : ptr) : Exported c_int
| call_retention_times (dr : ptr) (times : ptr) : Exported DataErrorCode
| call_get_TIC (dr : ptr) (index : c_int) : Exported c_float.

(** The linker's view: each exported symbol runs the function of that name
    defined above. *)
Definition invoke {V : SDK T} {RT : Runtime} {R} (e : Exported R) : M R :=
  match e in Exported R return M R with
  | call_usb_instrument => usb_instrument
  | call_simulated_instrument folder => simulated_instrument folder
  | call_set_switch i s v => set_switch i s v
  | call_ignore_remaining_pumpdown_time i => ignore_remaining_pumpdown_time i
  | call_get_pumpdown_remaining_seconds i => get_pumpdown_remaining_seconds i
  | call_get_source i => get_source i
  | call_get_number_readback i id => get_number_readback i id
  | call_get_binary_readback i id => get_binary_readback i id
  | call_start m i t n f => start m i t n f
  | call_start_with_switching m i1 i2 t1 t2 n f =>
      start_with_switching m i1 i2 t1 t2 n f
  | call_stop => stop
  | call_pause => pause
  | call_resume => resume
  | call_extend s => extend s
  | call_get_state => get_state
  | call_get_current_folder => get_current_folder
  | call_get_acquisition_bins_per_amu => get_acquisition_bins_per_amu
  | call_set_acquisition_bins_per_amu b => set_acquisition_bins_per_amu b
  | call_get_last_num_masses => get_last_num_masses
  | call_get_max_num_masses => get_max_num_masses
  | call_get_last_spectrum_masses b => get_last_spectrum_masses b
  | call_get_last_spectrum_intensities b => get_last_spectrum_intensities b
  | call_start_controller i => start_controller i
  | call_stop_controller => stop_controller
  | call_can_vent => can_vent
  | call_vent => vent
  | call_can_pump_down => can_pump_down
  | call_pump_down => pump_down
  | call_get_instrument_state => get_instrument_state
  | call_get_operation_mode => get_operation_mode
  | call_can_operate => can_operate
  | call_operate => operate
  | call_standby => standby
  | call_can_standby => can_standby
  | call_get_tune_parameters => get_tune_parameters
  | call_set_tune_parameters x => set_tune_parameters x
  | call_get_ion_source_optimization => get_ion_source_optimization
  | call_set_ion_source_optimization x => set_ion_source_optimization x
  | call_make_reader p d s => make_reader p d s
  | call_free_reader dr => free_reader dr
  | call_get_delta_background_spectrum dr b =>
      get_delta_background_spectrum dr b
  | call_get_delta_spectrum dr i b => get_delta_spectrum dr i b
  | call_get_spectrum dr i b => get_spectrum dr i b
  | call_get_masses dr b => get_masses dr b
  | call_num_masses dr => num_masses dr
  | call_num_spectra dr => num_spectra dr
  | call_retention_times dr b => retention_times dr b
  | call_get_TIC dr i => get_TIC dr i
  end.

End Table.
End Wrapper.
Export Wrapper.

(* ------------------------------------------------------------------ *)
(** ** The forwarding contract, as the specification words it *)
(* ------------------------------------------------------------------ *)
Module Contract.

Section Forwarding.
Context {T : Types}.

(** Written after the specification, not after the code: "a flat C-linkage
    function table; each function maps one caller-facing primitive
    operation to one vendor SDK call", with the operations and argument
    lists of its component design.  The operations that create or destroy
    an object (instrument [create], reader [open] and [close]) name no
    vendor method and have no row. *)
Definition forwarding_table {R} (e : Exported R) : option (VendorCall R) :=
  match e in Exported R return option (VendorCall R) with
  | call_usb_instrument => None
  | call_simulated_instrument _ => None
  | call_make_reader _ _ _ => None
  | call_free_reader _ => None
  | call_set_switch handle switch_id value =>
      Some (Instrument_setInstrumentSwitchOn handle switch_id value)
  | call_ignore_remaining_pumpdown_time handle =>
      Some (Instrument_ignoreRemainingPumpDownTime handle)
  | call_get_pumpdown_remaining_seconds handle =>
      Some (Instrument_getPumpDownRemainingSeconds handle)
  | call_get_source handle => Some (Instrument_getSourceType handle)
  | call_get_number_readback handle id =>
      Some (Instrument_getNumberReadback handle id)
  | call_get_binary_readback handle id =>
      Some (Instrument_getBinaryReadback handle id)
  | call_start methodXML ionSourceXML tuneXML name folder =>
      Some (AcquisitionManager_start methodXML ionSourceXML tuneXML
              name folder)
  | call_start_with_switching methodXML ionSourceXML1 ionSourceXML2
      tuneXML1 tuneXML2 name folder =>
      Some (AcquisitionManager_startWithSwitching methodXML
              ionSourceXML1 ionSourceXML2 tuneXML1 tuneXML2 name folder)
  | call_stop => Some AcquisitionManager_stop
  | call_pause => Some AcquisitionManager_pause
  | call_resume => Some AcquisitionManager_resume
  | call_extend seconds => Some (AcquisitionManager_extend seconds)
  | call_get_state => Some AcquisitionManager_getState
  | call_get_current_folder => Some AcquisitionManager_getCurrentFolder
  | call_get_acquisition_bins_per_amu =>
      Some AcquisitionManager_getAcquisitionBinsPerAMU
  | call_set_acquisition_bins_per_amu bins =>
      Some (AcquisitionManager_setAcquisitionBinsPerAMU bins)
  | call_get_last_num_masses => Some AcquisitionManager_getLastNumMasses
  | call_get_max_num_masses => Some AcquisitionManager_getMaxNumMasses
  | call_get_last_spectrum_masses buffer =>
      Some (AcquisitionManager_getLastSpectrumMasses buffer)
  | call_get_last_spectrum_intensities buffer =>
      Some (AcquisitionManager_getLastSpectrumIntensities buffer)
  | call_start_controller handle =>
      Some (InstrumentController_startController handle)
  | call_stop_controller => Some InstrumentController_stopController
  | call_can_vent => Some InstrumentController_canVent
  | call_vent => Some InstrumentController_vent
  | call_can_pump_down => Some InstrumentController_canPumpDown
  | call_pump_down => Some InstrumentController_pumpDown
  | call_get_instrument_state => Some InstrumentController_getState
  | call_get_operation_mode => Some InstrumentController_getOperationMode
  | call_can_operate => Some InstrumentController_canOperate
  | call_operate => Some InstrumentController_operate
  | call_standby => Some InstrumentController_standby
  | call_can_standby => Some InstrumentController_canStandby
  | call_get_tune_parameters => Some InstrumentController_getTuneParameters
  | call_set_tune_parameters xml =>
      Some (InstrumentController_setTuneParameters xml)
  | call_get_ion_source_optimization =>
      Some InstrumentController_getIonSourceOptimization
  | call_set_ion_source_optimization xml =>
      Some (InstrumentController_setIonSourceOptimization xml)
  | call_get_delta_background_spectrum handle out_intensities =>
      Some (DataReader_getDeltaBackgroundSpectrum handle out_intensities)
  | call_get_delta_spectrum handle index out_intensities =>
      Some (DataReader_getDeltaSpectrum handle index out_intensities)
  | call_get_spectrum handle index out_intensities =>
      Some (DataReader_getSpectrum handle index out_intensities)
  | call_get_masses handle out_masses =>
      Some (DataReader_getMasses handle out_masses)
  | call_num_masses handle => Some (DataReader_getNumMasses handle)
  | call_num_spectra handle => Some (DataReader_getNumSpectra handle)
  | call_retention_times handle out_times =>
      Some (DataReader_getRetentionTimes handle out_times)
  | call_get_TIC handle index => Some (DataReader_getTIC handle index)
  end.

Context {V : SDK T} {RT : Runtime}.

(** What "forwards to exactly one vendor call and does nothing else" means
    for a run from world [w]: the vendor's answer is the outcome, the
    vendor's new state is the only change, the free store is untouched, and
    the log holds that one call. *)
Definition forwarded {R} (c : VendorCall R) (w : World) : result R :=
  mkResult (fst (exec c (sdk w)))
           (mkWorld (heap w) (snd (exec c (sdk w))))
           [log_of c].

(** Allocation of [size] bytes is refused in world [w]. *)
Definition out_of_memory (size : N) (w : World) : Prop :=
  allocate size (heap w) = None.

End Forwarding.
End Contract.
Export Contract.

(* ------------------------------------------------------------------ *)
(** ** A bench double of the SDK, to run the shim on concrete inputs *)
(* ------------------------------------------------------------------ *)
Module Bench.

Definition bench_types : Types := {|
  ErrorCode := Z;
  DataErrorCode := Z;
  InstrumentSwitch := Z;
  SourceType := Z;
  NumberReadback := Z;
  BinaryReadback := Z;
  AcquisitionState := Z;
  InstrumentState := Z;
  OperationMode := Z;
  c_double := Z;
  c_float := Z
|}.

(** The double keeps the files on disk, the objects constructed so far,
    the tune document and the pump-down clock.  A [strict] double refuses
    to construct a reader on a missing file by throwing; a lenient one
    constructs a reader that holds no scans. *)
Record bench_state : Type := mkBench {
  strict : bool;
  files : list string;
  objects : list ptr;
  tune : string;
  pumpdown : Z
}.

Definition file_exists (path : string) (s : bench_state) : bool :=
  existsb (String.eqb path) (files s).

Definition construct (this : ptr) (s : bench_state) : bench_state :=
  mkBench (strict s) (files s) (this :: objects s) (tune s) (pumpdown s).

Definition destroy (this : ptr) (s : bench_state) : bench_state :=
  mkBench (strict s) (files s) (remove N.eq_dec this (objects s))
          (tune s) (pumpdown s).

Definition open_reader (this : ptr) (path : string) (s : bench_state)
  : outcome unit * bench_state :=
  if (strict s && negb (file_exists path s))%bool
  then (Throws (sdk_exception "file not found"), s)
  else (Returns tt, construct this s).

Definition bench_exec R (c : @VendorCall bench_types R) (s : bench_state)
  : outcome R * bench_state :=
  match c in VendorCall R return outcome R * bench_state with
  | USBInstrument_ctor this => (Returns tt, construct this s)
  | SimulatedInstrument_ctor this _ => (Returns tt, construct this s)
  | Instrument_setInstrumentSwitchOn _ _ _ => (Returns tt, s)
  | Instrument_ignoreRemainingPumpDownTime _ =>
      (Returns tt, mkBench (strict s) (files s) (objects s) (tune s) 0)
  | Instrument_getPumpDownRemainingSeconds _ => (Returns (pumpdown s), s)
  | Instrument_getSourceType _ => (Returns 0%Z, s)
  | Instrument_getNumberReadback _ _ => (Returns 0%Z, s)
  | Instrument_getBinaryReadback _ _ => (Returns false, s)
  | AcquisitionManager_start _ _ _ _ _ => (Returns 0%Z, s)
  | AcquisitionManager_startWithSwitching _ _ _ _ _ _ _ => (Returns 0%Z, s)
  | AcquisitionManager_stop => (Returns 0%Z, s)
  | AcquisitionManager_pause => (Returns 0%Z, s)
  | AcquisitionManager_resume => (Returns 0%Z, s)
  | AcquisitionManager_extend seconds => (Returns seconds, s)
  | AcquisitionManager_getState => (Returns 0%Z, s)
  | AcquisitionManager_getCurrentFolder => (Returns EmptyString, s)
  | AcquisitionManager_getAcquisitionBinsPerAMU => (Returns 10%Z, s)
  | AcquisitionManager_setAcquisitionBinsPerAMU _ => (Returns 0%Z, s)
  | AcquisitionManager_getLastNumMasses => (Returns 0%Z, s)
  | AcquisitionManager_getMaxNumMasses => (Returns 0%Z, s)
  | AcquisitionManager_getLastSpectrumMasses _ => (Returns 0%Z, s)
  | AcquisitionManager_getLastSpectrumIntensities _ => (Returns 0%Z, s)
  | InstrumentController_startController _ => (Returns 0%Z, s)
  | InstrumentController_stopController => (Returns 0%Z, s)
  | InstrumentController_canVent => (Returns false, s)
  | InstrumentController_vent => (Returns 1%Z, s)
  | InstrumentController_canPumpDown => (Returns false, s)
  | InstrumentController_pumpDown => (Returns 1%Z, s)
  | InstrumentController_getState => (Returns 0%Z, s)
  | InstrumentController_getOperationMode => (Returns 0%Z, s)
  | InstrumentController_canOperate => (Returns false, s)
  | InstrumentController_operate => (Returns 1%Z, s)
  | InstrumentController_standby => (Returns 1%Z, s)
  | InstrumentController_canStandby => (Returns false, s)
  | InstrumentController_getTuneParameters => (Returns (tune s), s)
  | InstrumentController_setTuneParameters xml =>
      (Returns 0%Z, mkBench (strict s) (files s) (objects s) xml (pumpdown s))
  | InstrumentController_getIonSourceOptimization => (Returns EmptyString, s)
  | InstrumentController_setIonSourceOptimization _ => (Returns 0%Z, s)
  | DataReader_ctor this path _ _ => open_reader this path s
  | DataReader_dtor this => (Returns tt, destroy this s)
  | DataReader_getDeltaBackgroundSpectrum _ _ => (Returns 0%Z, s)
  | DataReader_getDeltaSpectrum _ _ _ => (Returns 0%Z, s)
  | DataReader_getSpectrum _ _ _ => (Returns 0%Z, s)
  | DataReader_getMasses _ _ => (Returns 0%Z, s)
  | DataReader_getNumMasses _ => (Returns 0%Z, s)
  | DataReader_getNumSpectra _ => (Returns 0%Z, s)
  | DataReader_getRetentionTimes _ _ => (Returns 0%Z, s)
  | DataReader_getTIC _ _ => (Returns 0%Z, s)
  end.

Definition bench_sdk : SDK bench_types := {|
  State := bench_state;
  exec := bench_exec;
  sizeof_USBInstrument := 64;
  sizeof_SimulatedInstrument := 96;
  sizeof_DataReader := 128;
  USBInstrument_base := fun a => a;
  SimulatedInstrument_base := fun a => a
|}.

(** A bump allocator over a fixed arena. *)
Record arena : Type := mkArena {
  next : positive;
  room : N;
  live : list positive
}.

Definition bench_allocate (size : N) (h : arena) : option (positive * arena) :=
  if (size <=? room h)%N
  then Some (next h,
             mkArena (next h + N.succ_pos size) (room h - size)
                     (next h :: live h))
  else None.

Definition bench_deallocate (a : positive) (h : arena) : arena :=
  mkArena (next h) (room h) (remove Pos.eq_dec a (live h)).

Definition bench_runtime : Runtime := {|
  Heap := arena;
  allocate := bench_allocate;
  deallocate := bench_deallocate
|}.

Definition bench_world (bytes : N) (strictness : bool)
  : @World bench_types bench_sdk bench_runtime :=
  mkWorld (V := bench_sdk) (RT := bench_runtime)
    (mkArena 4096 bytes [])
    (mkBench strictness ["run1.datx"%string] [] "<tune/>"%string 120).

(** A machine with memory to spare (against a lenient and against a strict
    double), and one with none left. *)
Definition roomy : @World bench_types bench_sdk bench_runtime :=
  bench_world 65536 false.
Definition roomy_strict : @World bench_types bench_sdk bench_runtime :=
  bench_world 65536 true.
Definition exhausted : @World bench_types bench_sdk bench_runtime :=
  bench_world 0 false.

(** The shim linked against the double. *)
Definition run {R} (e : @Exported bench_types R)
    (w : @World bench_types bench_sdk bench_runtime)
  : @result bench_types bench_sdk bench_runtime R :=
  invoke (V := bench_sdk) (RT := bench_runtime) e w.

End Bench.
Export Bench.

(* ------------------------------------------------------------------ *)
(** ** Sessions: several exports called one after the other *)
(* ------------------------------------------------------------------ *)
Module Session.

Section Scripts.
Context {T : Types}.

(** An exported call with its return type packed, as a caller lists it. *)
Definition any_export : Type := { R : Type & Exported R }.
Definition pack {R} (e : Exported R) : any_export := existT _ R e.

(** The rows of the specification's table for a whole script; [None] as
    soon as one export of the script has no row. *)
Fixpoint table_rows (script : list any_export) : option (list logged) :=
  match script with
  | [] => Some []
  | existT _ _ e :: rest =>
      match forwarding_table e, table_rows rest with
      | Some c, Some cs => Some (log_of c :: cs)
      | _, _ => None
      end
  end.

Context {V : SDK T} {RT : Runtime}.

(** The caller runs the exports in order and drops their values; the first
    one that throws or crashes ends the session. *)
Fixpoint session (script : list any_export) : M unit :=
  match script with
  | [] => ret tt
  | existT _ _ e :: rest => bind (invoke e) (fun _ => session rest)
  end.

(** A returned value with its type packed, as the caller receives it. *)
Definition any_value : Type := { R : Type & R }.

(** The caller runs the exports in order and keeps every value it gets
    back; the first export that throws or crashes ends the dialogue. *)
Fixpoint dialogue (script : list any_export) : M (list any_value) :=
  match script with
  | [] => ret []
  | existT _ R e :: rest =>
      bind (invoke e) (fun v =>
      bind (dialogue rest) (fun vs =>
      ret (existT (fun R : Type => R) R v :: vs)))
  end.

(** The same list of calls made on the SDK itself, without the shim:
    the values the SDK answers, the state it is left in, and the calls it
    received. *)
Fixpoint direct (cs : list logged) (s : State)
  : outcome (list any_value) * State * list logged :=
  match cs with
  | [] => (Returns [], s, [])
  | existT _ R c :: rest =>
      let x := exec c s in
      match fst x with
      | Returns v =>
          let '(o, s', l) := direct rest (snd x) in
          (match o with
           | Returns vs => Returns (existT (fun R : Type => R) R v :: vs)
           | Throws ex => Throws ex
           | Crashes => Crashes
           end, s', log_of c :: l)
      | Throws ex => (Throws ex, snd x, [log_of c])
      | Crashes => (Crashes, snd x, [log_of c])
      end
  end.

(** The SDK answered the logged call [l], made in state [s], by throwing
    [ex]. *)
Definition sdk_threw (l : logged) (s : State) (ex : exception) : Prop :=
  fst (exec (projT2 l) s) = Throws ex.

End Scripts.
End Session.
Export Session.

(* ------------------------------------------------------------------ *)
(** ** A second double: no instrument attached *)
(* ------------------------------------------------------------------ *)
Module Detached.

(** As the bench double, except that both instrument constructors throw:
    there is no device on the bus and no recording to replay. *)
Definition detached_exec R (c : @VendorCall bench_types R) (s : bench_state)
  : outcome R * bench_state :=
  match c in VendorCall R return outcome R * bench_state with
  | USBInstrument_ctor _ =>
      (Throws (sdk_exception "no instrument on the bus"), s)
  | SimulatedInstrument_ctor _ _ =>
      (Throws (sdk_exception "no recording in folder"), s)
  | c' => bench_exec c' s
  end.

Definition detached_sdk : SDK bench_types := {|
  State := bench_state;
  exec := detached_exec;
  sizeof_USBInstrument := 64;
  sizeof_SimulatedInstrument := 96;
  sizeof_DataReader := 128;
  USBInstrument_base := fun a => a;
  SimulatedInstrument_base := fun a => a
|}.

Definition detached : @World bench_types detached_sdk bench_runtime :=
  mkWorld (V := detached_sdk) (RT := bench_runtime)
    (mkArena 4096 65536 [])
    (mkBench true ["run1.datx"%string] [] "<tune/>"%string 120).

End Detached.
Export Detached.


(* ------------------------------------------------------------------ *)
(** ** What the three lifetime expressions do, by cases *)
(* ------------------------------------------------------------------ *)
Section Lifetime.
Context {T : Types} {V : SDK T} {RT : Runtime}.

Lemma vcall_forwarded R (c : VendorCall R) (w : World) :
  vcall c w = forwarded c w.
Proof. reflexivity. Qed.

(** A throwing [new C(args)], case by case on the allocator and on how the
    constructor ends. *)
Lemma new_run (size : N) (ctor : ptr -> VendorCall unit) (w : World) :
  new_ size ctor w =
  match allocate size (heap w) with
  | None => mkResult (Throws std_bad_alloc) w []
  | Some (a, h) =>
      let x := exec (ctor (Npos a)) (sdk w) in
      match fst x with
      | Returns _ =>
          mkResult (Returns (Npos a)) (mkWorld h (snd x))
                   [log_of (ctor (Npos a))]
      | Throws e =>
          mkResult (Throws e) (mkWorld (deallocate a h) (snd x))
                   [log_of (ctor (Npos a))]
      | Crashes =>
          mkResult Crashes (mkWorld h (snd x)) [log_of (ctor (Npos a))]
      end
  end.
Proof.
  unfold new_, bind, on_throw, operator_new, vcall, ret.
  destruct (allocate size (heap w)) as [[a h]|]; cbn; [|reflexivity].
  destruct (exec (ctor (Npos a)) (sdk w)) as [[u|e|] s]; reflexivity.
Qed.

(** The same for [new(std::nothrow) C(args)]. *)
Lemma new_nothrow_run (size : N) (ctor : ptr -> VendorCall unit) (w : World) :
  new_nothrow size ctor w =
  match allocate size (heap w) with
  | None => mkResult (Returns nullptr) w []
  | Some (a, h) =>
      let x := exec (ctor (Npos a)) (sdk w) in
      match fst x with
      | Returns _ =>
          mkResult (Returns (Npos a)) (mkWorld h (snd x))
                   [log_of (ctor (Npos a))]
      | Throws e =>
          mkResult (Throws e) (mkWorld (deallocate a h) (snd x))
                   [log_of (ctor (Npos a))]
      | Crashes =>
          mkResult Crashes (mkWorld h (snd x)) [log_of (ctor (Npos a))]
      end
  end.
Proof.
  unfold new_nothrow, bind, on_throw, operator_new_nothrow, vcall, ret.
  destruct (allocate size (heap w)) as [[a h]|]; cbn; [|reflexivity].
  destruct (exec (ctor (Npos a)) (sdk w)) as [[u|e|] s]; reflexivity.
Qed.

(** [delete p] on a live pointer. *)
Lemma delete_run (dtor : ptr -> VendorCall unit) (a : positive) (w : World) :
  delete_ dtor (Npos a) w =
  let x := exec (dtor (Npos a)) (sdk w) in
  match fst x with
  | Returns _ =>
      mkResult (Returns tt) (mkWorld (deallocate a (heap w)) (snd x))
               [log_of (dtor (Npos a))]
  | Throws e =>
      mkResult (Throws e) (mkWorld (deallocate a (heap w)) (snd x))
               [log_of (dtor (Npos a))]
  | Crashes =>
      mkResult Crashes (mkWorld (heap w) (snd x)) [log_of (dtor (Npos a))]
  end.
Proof.
  unfold delete_, bind, on_throw, operator_delete, vcall; cbn.
  destruct (exec (dtor (Npos a)) (sdk w)) as [[u|e|] s]; reflexivity.
Qed.

(** [delete] of a null pointer runs nothing at all. *)
Lemma delete_null (dtor : ptr -> VendorCall unit) (w : World) :
  delete_ dtor nullptr w = mkResult (Returns tt) w [].
Proof. reflexivity. Qed.

(** Returning through a pointer conversion keeps outcome class, world and
    log. *)
Lemma bind_ret_run A B (m : M A) (f : A -> B) (w : World) :
  bind m (fun a => ret (f a)) w =
  mkResult
    match outcome_of (m w) with
    | Returns a => Returns (f a)
    | Throws e => Throws e
    | Crashes => Crashes
    end
    (world_of (m w)) (calls_of (m w)).
Proof.
  unfold bind, ret.
  destruct (outcome_of (m w)); cbn; try reflexivity.
  now rewrite app_nil_r.
Qed.

(** A live pointer stays live through a base-class conversion. *)
Lemma pointer_cast_live (f : positive -> positive) (a : positive) :
  pointer_cast f (Npos a) <> nullptr.
Proof. discriminate. Qed.

(** Every row of the specification's table is met by the code. *)
Lemma invoke_forwarded R (e : Exported R) (c : VendorCall R) :
  forwarding_table e = Some c -> forall w, invoke e w = forwarded c w.
Proof.
  destruct e; cbn; intros H w; try discriminate;
    injection H as <-; reflexivity.
Qed.

(** [static_cast<Instrument *>(new C(args))], by cases. *)
Lemma factory_run (size : N) (ctor : ptr -> VendorCall unit)
    (base : positive -> positive) (w : World) :
  bind (new_ size ctor) (fun p => ret (pointer_cast base p)) w =
  match allocate size (heap w) with
  | None => mkResult (Throws std_bad_alloc) w []
  | Some (a, h) =>
      let x := exec (ctor (Npos a)) (sdk w) in
      match fst x with
      | Returns _ =>
          mkResult (Returns (Npos (base a))) (mkWorld h (snd x))
                   [log_of (ctor (Npos a))]
      | Throws e =>
          mkResult (Throws e) (mkWorld (deallocate a h) (snd x))
                   [log_of (ctor (Npos a))]
      | Crashes =>
          mkResult Crashes (mkWorld h (snd x)) [log_of (ctor (Npos a))]
      end
  end.
Proof.
  rewrite bind_ret_run, new_run.
  destruct (allocate size (heap w)) as [[a h]|]; cbn; [|reflexivity].
  destruct (fst (exec (ctor (Npos a)) (sdk w))); reflexivity.
Qed.

Lemma make_reader_run (path : c_str) (debugOutput decodeSpectra : bool)
    (w : World) :
  make_reader path debugOutput decodeSpectra w =
  new_nothrow sizeof_DataReader
    (fun this => DataReader_ctor this path debugOutput decodeSpectra) w.
Proof.
  unfold make_reader.
  rewrite (bind_ret_run _ (fun dr : ptr => dr)).
  destruct (new_nothrow _ _ w) as [[p|e|] w' l]; reflexivity.
Qed.

(** Out of memory, a throwing factory ends in [std::bad_alloc] before any
    vendor code runs. *)
Lemma factory_out_of_memory (size : N) (ctor : ptr -> VendorCall unit)
    (base : positive -> positive) (w : World) :
  out_of_memory size w ->
  bind (new_ size ctor) (fun p => ret (pointer_cast base p)) w =
  mkResult (Throws std_bad_alloc) w [].
Proof.
  unfold out_of_memory; intros H. now rewrite factory_run, H.
Qed.

(** A throwing factory has no way to hand back a null pointer. *)
Lemma factory_not_null (size : N) (ctor : ptr -> VendorCall unit)
    (base : positive -> positive) (w : World) :
  outcome_of (bind (new_ size ctor) (fun p => ret (pointer_cast base p)) w)
  <> Returns nullptr.
Proof.
  rewrite factory_run.
  destruct (allocate size (heap w)) as [[a h]|]; cbn; [|discriminate].
  destruct (fst (exec (ctor (Npos a)) (sdk w))); cbn; discriminate.
Qed.

(** Out of memory, [make_reader] answers null and runs no vendor code. *)
Lemma make_reader_out_of_memory (path : c_str) (d s : bool) (w : World) :
  out_of_memory sizeof_DataReader w ->
  make_reader path d s w = mkResult (Returns nullptr) w [].
Proof.
  unfold out_of_memory; intros H.
  now rewrite make_reader_run, new_nothrow_run, H.
Qed.

End Lifetime.

(* ------------------------------------------------------------------ *)
(** ** The specification's claims about the shim *)
(* ------------------------------------------------------------------ *)
Section Claims.
Context {T : Types} {V : SDK T} {RT : Runtime}.

(** C1 (as amended).  Every exported function that has a row in the
    specification's table -- all but [usb_instrument],
    [simulated_instrument], [make_reader] and [free_reader] -- passes its
    arguments, unchanged and in order, to the one vendor call of that row,
    hands back that call's outcome, leaves the free store alone and logs
    nothing else.  The four remaining functions work on the free store
    themselves.  A factory asks the allocator for one block; refused, it
    makes no vendor call and changes nothing ([std::bad_alloc] from the
    instrument factories, null from [make_reader]); granted block [a], it
    makes exactly one vendor call, the constructor on [a] with the
    factory's arguments in order, returns [a] when the constructor
    returns, and keeps the block unless the constructor throws.
    [free_reader] makes no call and changes nothing on null; on a live
    pointer it makes exactly one vendor call, the destructor on that
    pointer, and releases that block. *)
Theorem forwarding_outside_object_lifetime :
  (forall R (e : Exported R) (c : VendorCall R),
      forwarding_table e = Some c ->
      forall w, invoke e w = forwarded c w)
  /\ (forall w,
        usb_instrument w =
        match allocate sizeof_USBInstrument (heap w) with
        | None => mkResult (Throws std_bad_alloc) w []
        | Some (a, h) =>
            let made := exec (USBInstrument_ctor (Npos a)) (sdk w) in
            mkResult
              match fst made with
              | Returns _ =>
                  Returns (pointer_cast USBInstrument_base (Npos a))
              | Throws ex => Throws ex
              | Crashes => Crashes
              end
              (mkWorld
                 match fst made with
                 | Throws _ => deallocate a h
                 | _ => h
                 end
                 (snd made))
              [log_of (USBInstrument_ctor (Npos a))]
        end)
  /\ (forall folder w,
        simulated_instrument folder w =
        match allocate sizeof_SimulatedInstrument (heap w) with
        | None => mkResult (Throws std_bad_alloc) w []
        | Some (a, h) =>
            let made :=
              exec (SimulatedInstrument_ctor (Npos a) folder) (sdk w) in
            mkResult
              match fst made with
              | Returns _ =>
                  Returns (pointer_cast SimulatedInstrument_base (Npos a))
              | Throws ex => Throws ex
              | Crashes => Crashes
              end
              (mkWorld
                 match fst made with
                 | Throws _ => deallocate a h
                 | _ => h
                 end
                 (snd made))
              [log_of (SimulatedInstrument_ctor (Npos a) folder)]
        end)
  /\ (forall path debugOutput decodeSpectra w,
        make_reader path debugOutput decodeSpectra w =
        match allocate sizeof_DataReader (heap w) with
        | None => mkResult (Returns nullptr) w []
        | Some (a, h) =>
            let made :=
              exec (DataReader_ctor (Npos a) path debugOutput decodeSpectra)
                   (sdk w) in
            mkResult
              match fst made with
              | Returns _ => Returns (Npos a)
              | Throws ex => Throws ex
              | Crashes => Crashes
              end
              (mkWorld
                 match fst made with
                 | Throws _ => deallocate a h
                 | _ => h
                 end
                 (snd made))
              [log_of (DataReader_ctor (Npos a) path
                         debugOutput decodeSpectra)]
        end)
  /\ (forall dr w,
        free_reader dr w =
        match dr with
        | N0 => mkResult (Returns tt) w []
        | Npos a =>
            let gone := exec (DataReader_dtor (Npos a)) (sdk w) in
            mkResult
              match fst gone with
              | Returns _ => Returns tt
              | Throws ex => Throws ex
              | Crashes => Crashes
              end
              (mkWorld
                 match fst gone with
                 | Crashes => heap w
                 | _ => deallocate a (heap w)
                 end
                 (snd gone))
              [log_of (DataReader_dtor (Npos a))]
        end).
Proof.
  split; [exact invoke_forwarded|].
  split; [|split; [|split]].
  - intros w. unfold usb_instrument. rewrite factory_run.
    destruct (allocate _ (heap w)) as [[a h]|]; cbn; [|reflexivity].
    destruct (fst (exec (USBInstrument_ctor (Npos a)) (sdk w)));
      reflexivity.
  - intros folder w. unfold simulated_instrument. rewrite factory_run.
    destruct (allocate _ (heap w)) as [[a h]|]; cbn; [|reflexivity].
    destruct (fst (exec (SimulatedInstrument_ctor (Npos a) folder) (sdk w)));
      reflexivity.
  - intros path d s w. rewrite make_reader_run, new_nothrow_run.
    destruct (allocate _ (heap w)) as [[a h]|]; cbn; [|reflexivity].
    destruct (fst (exec (DataReader_ctor (Npos a) path d s) (sdk w)));
      reflexivity.
  - intros [|a] w; [reflexivity|].
    unfold free_reader. rewrite delete_run. cbn.
    destruct (fst (exec (DataReader_dtor (Npos a)) (sdk w))); reflexivity.
Qed.

(** C4.  [free_reader] on a null pointer returns normally, runs neither
    the destructor nor the deallocation, and leaves the world as it was. *)
Theorem free_reader_null_is_noop (w : World) :
  free_reader nullptr w = mkResult (Returns tt) w [].
Proof. unfold free_reader. apply delete_null. Qed.

(** C2.  When the allocation of the [DataReader] fails, [make_reader]
    returns the null handle, whatever its three arguments: no exception
    leaves it, no vendor code runs and the world is as before.  No other
    export absorbs an allocation failure: out of memory the two instrument
    factories end in [std::bad_alloc], [free_reader] only ever gives
    storage back, and every remaining export hands on the vendor's own
    outcome without touching the free store. *)
Theorem make_reader_absorbs_allocation_failure :
  (forall path debugOutput decodeSpectra w,
      out_of_memory sizeof_DataReader w ->
      make_reader path debugOutput decodeSpectra w
      = mkResult (Returns nullptr) w [])
  /\ (forall w,
        out_of_memory sizeof_USBInstrument w ->
        usb_instrument w = mkResult (Throws std_bad_alloc) w [])
  /\ (forall folder w,
        out_of_memory sizeof_SimulatedInstrument w ->
        simulated_instrument folder w = mkResult (Throws std_bad_alloc) w [])
  /\ (forall dr w,
        heap (world_of (free_reader dr w)) = heap w
        \/ exists a, dr = Npos a
             /\ heap (world_of (free_reader dr w)) = deallocate a (heap w))
  /\ (forall R (e : Exported R) (c : VendorCall R),
        forwarding_table e = Some c ->
        forall w,
          outcome_of (invoke e w) = fst (exec c (sdk w))
          /\ heap (world_of (invoke e w)) = heap w).
Proof.
  split; [exact make_reader_out_of_memory|].
  split; [intros w; apply factory_out_of_memory|].
  split; [intros folder w; apply factory_out_of_memory|].
  split.
  - intros [|a] w; [now left|].
    unfold free_reader. rewrite delete_run. cbn.
    destruct (fst (exec (DataReader_dtor (Npos a)) (sdk w))); cbn;
      [right; exists a; now split | right; exists a; now split | now left].
  - intros R e c H w. now rewrite (invoke_forwarded e H).
Qed.

(** C3 (as amended).  Whatever file the path names, [make_reader] returns
    the null handle exactly when the allocation of the [DataReader] fails.
    With storage at hand its outcome is the constructor's: the live handle
    when the constructor returns, and otherwise the constructor's exception
    or crash, which the shim does not intercept. *)
Theorem make_reader_null_iff_out_of_memory
    (path : c_str) (debugOutput decodeSpectra : bool) (w : World) :
  (outcome_of (make_reader path debugOutput decodeSpectra w) = Returns nullptr
   <-> out_of_memory sizeof_DataReader w)
  /\ (forall a h,
        allocate sizeof_DataReader (heap w) = Some (a, h) ->
        outcome_of (make_reader path debugOutput decodeSpectra w)
        = match fst (exec (DataReader_ctor (Npos a) path
                             debugOutput decodeSpectra) (sdk w)) with
          | Returns _ => Returns (Npos a)
          | Throws e => Throws e
          | Crashes => Crashes
          end).
Proof.
  split.
  - split.
    + rewrite make_reader_run, new_nothrow_run. unfold out_of_memory.
      destruct (allocate _ (heap w)) as [[a h]|]; cbn; [|reflexivity].
      destruct (fst (exec _ (sdk w))); cbn; discriminate.
    + intros H. now rewrite make_reader_out_of_memory.
  - intros a h H. rewrite make_reader_run, new_nothrow_run, H. cbn.
    destruct (fst (exec _ (sdk w))); reflexivity.
Qed.

(** C9 (as amended).  The instrument factories have no null check and no
    error value of their own.  Whatever pointer they return is the storage
    the allocator just gave, converted to [Instrument *]; and a failed
    allocation does reach the caller, as the [std::bad_alloc] of the
    throwing [new], not as a returned pointer. *)
Theorem instrument_factories_unchecked :
  (forall w p,
      outcome_of (usb_instrument w) = Returns p ->
      exists a h,
        allocate sizeof_USBInstrument (heap w) = Some (a, h)
        /\ p = Npos (USBInstrument_base a))
  /\ (forall folder w p,
        outcome_of (simulated_instrument folder w) = Returns p ->
        exists a h,
          allocate sizeof_SimulatedInstrument (heap w) = Some (a, h)
          /\ p = Npos (SimulatedInstrument_base a))
  /\ (forall w,
        out_of_memory sizeof_USBInstrument w ->
        outcome_of (usb_instrument w) = Throws std_bad_alloc)
  /\ (forall folder w,
        out_of_memory sizeof_SimulatedInstrument w ->
        outcome_of (simulated_instrument folder w) = Throws std_bad_alloc).
Proof.
  split; [|split; [|split]].
  - intros w p. unfold usb_instrument. rewrite factory_run.
    destruct (allocate _ (heap w)) as [[a h]|]; cbn; [|discriminate].
    destruct (fst (exec _ (sdk w))); cbn; try discriminate.
    intros [= <-]. now exists a, h.
  - intros folder w p. unfold simulated_instrument. rewrite factory_run.
    destruct (allocate _ (heap w)) as [[a h]|]; cbn; [|discriminate].
    destruct (fst (exec _ (sdk w))); cbn; try discriminate.
    intros [= <-]. now exists a, h.
  - intros w H. unfold usb_instrument. now rewrite factory_out_of_memory.
  - intros folder w H. unfold simulated_instrument.
    now rewrite factory_out_of_memory.
Qed.

(** C10.  [usb_instrument] and [simulated_instrument] never return the null
    handle: their [new] is the throwing one, so a failed allocation leaves
    the shim as [std::bad_alloc].  [make_reader], built on
    [new(std::nothrow)], is the factory that returns null instead. *)
Theorem instrument_factories_never_null :
  (forall w, outcome_of (usb_instrument w) <> Returns nullptr)
  /\ (forall folder w,
        outcome_of (simulated_instrument folder w) <> Returns nullptr)
  /\ (forall w,
        out_of_memory sizeof_USBInstrument w ->
        outcome_of (usb_instrument w) = Throws std_bad_alloc)
  /\ (forall folder w,
        out_of_memory sizeof_SimulatedInstrument w ->
        outcome_of (simulated_instrument folder w) = Throws std_bad_alloc)
  /\ (forall path debugOutput decodeSpectra w,
        out_of_memory sizeof_DataReader w ->
        outcome_of (make_reader path debugOutput decodeSpectra w)
        = Returns nullptr).
Proof.
  split; [intros w; apply factory_not_null|].
  split; [intros folder w; apply factory_not_null|].
  split; [intros w H; unfold usb_instrument;
          now rewrite factory_out_of_memory|].
  split; [intros folder w H; unfold simulated_instrument;
          now rewrite factory_out_of_memory|].
  intros path d s w H. now rewrite make_reader_out_of_memory.
Qed.

End Claims.

(* ------------------------------------------------------------------ *)
(** ** Properties that are the SDK's to keep *)
(* ------------------------------------------------------------------ *)
Section DecidedByTheSDK.
Context {T : Types} {V : SDK T} {RT : Runtime}.

(** Whatever can be said of one forwarding export -- of its outcome and of
    the vendor state before and after -- can be said of the vendor entry
    point in its row, and the other way round: the shim neither adds a
    guarantee (a bounds check, a guard test, a sign check) nor loses one. *)
Lemma export_property_is_sdk_property R (e : Exported R) (c : VendorCall R)
    (P : outcome R -> State -> State -> Prop) (h : Heap) :
  forwarding_table e = Some c ->
  (forall w, P (outcome_of (invoke e w)) (sdk w) (sdk (world_of (invoke e w))))
  <-> (forall s, P (fst (exec c s)) s (snd (exec c s))).
Proof.
  intros H; split.
  - intros Hw s. specialize (Hw (mkWorld h s)).
    now rewrite (invoke_forwarded e H) in Hw.
  - intros Hs w. rewrite (invoke_forwarded e H). apply Hs.
Qed.

(** Two forwarding exports called one after the other (a guard and its
    action, a setter and its getter) are the two vendor calls one after
    the other, with nothing in between. *)
Lemma two_exports_in_a_row R1 R2 (e1 : Exported R1) (e2 : Exported R2)
    (c1 : VendorCall R1) (c2 : VendorCall R2) (w : World) :
  forwarding_table e1 = Some c1 ->
  forwarding_table e2 = Some c2 ->
  bind (invoke e1) (fun _ => invoke e2) w =
  let x := exec c1 (sdk w) in
  match fst x with
  | Returns _ =>
      let y := exec c2 (snd x) in
      mkResult (fst y) (mkWorld (heap w) (snd y)) [log_of c1; log_of c2]
  | Throws ex => mkResult (Throws ex) (mkWorld (heap w) (snd x)) [log_of c1]
  | Crashes => mkResult Crashes (mkWorld (heap w) (snd x)) [log_of c1]
  end.
Proof.
  intros H1 H2. unfold bind.
  rewrite (invoke_forwarded e1 H1). cbn.
  destruct (fst (exec c1 (sdk w))); cbn; try reflexivity.
  now rewrite (invoke_forwarded e2 H2).
Qed.

(** [get_TIC] and [get_spectrum] pass any index on, in range or not. *)
Lemma index_passed_unchecked (dr buffer : ptr) (index : c_int) (w : World) :
  get_TIC dr index w = forwarded (DataReader_getTIC dr index) w
  /\ get_spectrum dr index buffer w
     = forwarded (DataReader_getSpectrum dr index buffer) w.
Proof. split; reflexivity. Qed.

End DecidedByTheSDK.

(* ------------------------------------------------------------------ *)
(** ** The claims on the bench *)
(* ------------------------------------------------------------------ *)

Lemma forwarding_outside_object_lifetime_witness :
  forwarding_table (call_get_spectrum (T := bench_types) 4096%N 7%Z 8192%N)
  = Some (DataReader_getSpectrum 4096%N 7%Z 8192%N)
  /\ run (call_get_spectrum 4096%N 7%Z 8192%N) roomy
     = forwarded (DataReader_getSpectrum 4096%N 7%Z 8192%N) roomy.
Proof.
  split; [reflexivity|].
  apply (proj1 (@forwarding_outside_object_lifetime
                  bench_types bench_sdk bench_runtime)).
  reflexivity.
Defined.

(** Against C1 as worded: [free_reader] on null reaches no vendor call;
    [make_reader] out of memory returns a null that no vendor call
    produced; [usb_instrument] changes the free store. *)
Lemma not_every_export_only_forwards :
  ~ (exists c : @VendorCall bench_types unit,
       run (call_free_reader nullptr) roomy = forwarded c roomy)
  /\ ~ (exists c : @VendorCall bench_types ptr,
          run (call_make_reader "run1.datx"%string false false) exhausted
          = forwarded c exhausted)
  /\ heap (world_of (run call_usb_instrument roomy)) <> heap roomy.
Proof.
  split; [|split].
  - intros [c H]. apply (f_equal (@calls_of _ _ _ _)) in H.
    vm_compute in H. discriminate.
  - intros [c H]. apply (f_equal (@calls_of _ _ _ _)) in H.
    vm_compute in H. discriminate.
  - vm_compute. discriminate.
Qed.

Lemma make_reader_absorbs_allocation_failure_witness :
  out_of_memory (@sizeof_DataReader _ bench_sdk) exhausted
  /\ run (call_make_reader "run1.datx"%string true false) exhausted
     = mkResult (Returns nullptr) exhausted []
  /\ out_of_memory (@sizeof_USBInstrument _ bench_sdk) exhausted
  /\ run call_usb_instrument exhausted
     = mkResult (Throws std_bad_alloc) exhausted []
  /\ out_of_memory (@sizeof_SimulatedInstrument _ bench_sdk) exhausted
  /\ run (call_simulated_instrument "recorded"%string) exhausted
     = mkResult (Throws std_bad_alloc) exhausted []
  /\ outcome_of (run call_stop exhausted)
     = fst (exec (SDK := bench_sdk) AcquisitionManager_stop (sdk exhausted)).
Proof.
  destruct (@make_reader_absorbs_allocation_failure
              bench_types bench_sdk bench_runtime)
    as (Hreader & Husb & Hsim & _ & Hrest).
  split; [reflexivity|].
  split; [apply Hreader; reflexivity|].
  split; [reflexivity|].
  split; [apply Husb; reflexivity|].
  split; [reflexivity|].
  split; [apply Hsim; reflexivity|].
  apply (Hrest _ call_stop AcquisitionManager_stop); reflexivity.
Defined.

Lemma make_reader_null_iff_out_of_memory_witness :
  out_of_memory (@sizeof_DataReader _ bench_sdk) exhausted
  /\ outcome_of (run (call_make_reader "missing.datx"%string false false)
                   exhausted) = Returns nullptr
  /\ allocate (Runtime := bench_runtime)
       (@sizeof_DataReader _ bench_sdk) (heap roomy)
     = Some (4096%positive, mkArena 4225 65408 [4096%positive])
  /\ outcome_of (run (call_make_reader "missing.datx"%string false false)
                   roomy) = Returns 4096%N.
Proof.
  split; [reflexivity|].
  split.
  - apply (proj1 (@make_reader_null_iff_out_of_memory
                    bench_types bench_sdk bench_runtime
                    "missing.datx"%string false false exhausted)).
    reflexivity.
  - split; [reflexivity|].
    apply (proj2 (@make_reader_null_iff_out_of_memory
                    bench_types bench_sdk bench_runtime
                    "missing.datx"%string false false roomy)
             4096%positive (mkArena 4225 65408 [4096%positive])).
    reflexivity.
Defined.

(** Against C3 as worded: with memory at hand and no such file on disk,
    [make_reader] answers a live handle against the lenient double and lets
    the constructor's exception through against the strict one; in neither
    case a null handle. *)
Lemma make_reader_missing_file_not_null :
  file_exists "missing.datx" (sdk roomy) = false
  /\ outcome_of (run (call_make_reader "missing.datx"%string false false)
                   roomy) = Returns 4096%N
  /\ 4096%N <> nullptr
  /\ file_exists "missing.datx" (sdk roomy_strict) = false
  /\ outcome_of (run (call_make_reader "missing.datx"%string false false)
                   roomy_strict)
     = Throws (sdk_exception "file not found").
Proof.
  repeat split; try reflexivity. discriminate.
Qed.

Lemma instrument_factories_unchecked_witness :
  outcome_of (run call_usb_instrument roomy) = Returns 4096%N
  /\ (exists a h,
        allocate (Runtime := bench_runtime)
          (@sizeof_USBInstrument _ bench_sdk) (heap roomy) = Some (a, h)
        /\ 4096%N = Npos (@USBInstrument_base _ bench_sdk a))
  /\ out_of_memory (@sizeof_SimulatedInstrument _ bench_sdk) exhausted
  /\ outcome_of (run (call_simulated_instrument "recorded"%string) exhausted)
     = Throws std_bad_alloc.
Proof.
  destruct (@instrument_factories_unchecked
              bench_types bench_sdk bench_runtime)
    as (Husb & _ & _ & Hsim).
  split; [reflexivity|].
  split; [apply (Husb roomy); reflexivity|].
  split; [reflexivity|].
  apply Hsim; reflexivity.
Defined.

(** Against C9 as worded: out of memory, [usb_instrument] returns no
    pointer at all; the failure arrives at the caller as an exception. *)
Lemma usb_instrument_out_of_memory_is_reported :
  out_of_memory (@sizeof_USBInstrument _ bench_sdk) exhausted
  /\ outcome_of (run call_usb_instrument exhausted) = Throws std_bad_alloc
  /\ ~ (exists p, outcome_of (run call_usb_instrument exhausted) = Returns p).
Proof.
  split; [reflexivity|]. split; [reflexivity|].
  intros [p H]. vm_compute in H. discriminate.
Qed.

Lemma instrument_factories_never_null_witness :
  out_of_memory (@sizeof_USBInstrument _ bench_sdk) exhausted
  /\ outcome_of (run call_usb_instrument exhausted) = Throws std_bad_alloc
  /\ out_of_memory (@sizeof_SimulatedInstrument _ bench_sdk) exhausted
  /\ outcome_of (run (call_simulated_instrument "recorded"%string) exhausted)
     = Throws std_bad_alloc
  /\ out_of_memory (@sizeof_DataReader _ bench_sdk) exhausted
  /\ outcome_of (run (call_make_reader "run1.datx"%string false false)
                   exhausted) = Returns nullptr.
Proof.
  destruct (@instrument_factories_never_null
              bench_types bench_sdk bench_runtime)
    as (_ & _ & Husb & Hsim & Hreader).
  split; [reflexivity|].
  split; [apply Husb; reflexivity|].
  split; [reflexivity|].
  split; [apply Hsim; reflexivity|].
  split; [reflexivity|].
  apply Hreader; reflexivity.
Defined.

(* ------------------------------------------------------------------ *)
(** ** All 48 exports at once, and sessions *)
(* ------------------------------------------------------------------ *)
Section EveryExport.
Context {T : Types} {V : SDK T} {RT : Runtime}.

(** Split on the specification's table: an export with a row is covered by
    [invoke_forwarded]; what is left are the four lifetime exports. *)
Ltac by_row e Hrow :=
  let c := fresh "c" in
  destruct (forwarding_table e) as [c|] eqn:Hrow;
  [ rewrite (invoke_forwarded e Hrow)
  | destruct e; try discriminate Hrow; clear Hrow; cbn [invoke] ].

Lemma usb_instrument_run (w : World) :
  usb_instrument w =
  bind (new_ sizeof_USBInstrument USBInstrument_ctor)
       (fun p => ret (pointer_cast USBInstrument_base p)) w.
Proof. reflexivity. Qed.

Lemma simulated_instrument_run (folder : c_str) (w : World) :
  simulated_instrument folder w =
  bind (new_ sizeof_SimulatedInstrument
          (fun this => SimulatedInstrument_ctor this folder))
       (fun p => ret (pointer_cast SimulatedInstrument_base p)) w.
Proof. reflexivity. Qed.

Lemma invoke_calls_bound R (e : Exported R) (w : World) :
  List.length (calls_of (invoke e w)) <= 1.
Proof.
  by_row e Hrow; [cbn; lia| | | |].
  - rewrite usb_instrument_run, factory_run.
    destruct (allocate _ (heap w)) as [[a h]|]; cbn; [|lia].
    destruct (fst (exec _ (sdk w))); cbn; lia.
  - rewrite simulated_instrument_run, factory_run.
    destruct (allocate _ (heap w)) as [[a h]|]; cbn; [|lia].
    destruct (fst (exec _ (sdk w))); cbn; lia.
  - rewrite make_reader_run, new_nothrow_run.
    destruct (allocate _ (heap w)) as [[a h]|]; cbn; [|lia].
    destruct (fst (exec _ (sdk w))); cbn; lia.
  - destruct dr as [|a]; [cbn; lia|].
    unfold free_reader. rewrite delete_run. cbn.
    destruct (fst (exec _ (sdk w))); cbn; lia.
Qed.

(** X1.  Whatever export is called, with whatever arguments and in
    whatever world: the shim reaches the vendor library at most once, and
    the vendor's state afterwards is what that one call left (or the state
    before, if no call was made). *)
Theorem every_export_calls_the_sdk_at_most_once R (e : Exported R)
    (w : World) :
  (calls_of (invoke e w) = [] /\ sdk (world_of (invoke e w)) = sdk w)
  \/ exists R' (c : VendorCall R'),
       calls_of (invoke e w) = [log_of c]
       /\ sdk (world_of (invoke e w)) = snd (exec c (sdk w)).
Proof.
  by_row e Hrow.
  - right. exists R, c. split; reflexivity.
  - rewrite usb_instrument_run, factory_run.
    destruct (allocate _ (heap w)) as [[a h]|]; cbn; [|left; now split].
    right. exists unit, (USBInstrument_ctor (Npos a)).
    destruct (fst (exec _ (sdk w))); split; reflexivity.
  - rewrite simulated_instrument_run, factory_run.
    destruct (allocate _ (heap w)) as [[a h]|]; cbn; [|left; now split].
    right. exists unit, (SimulatedInstrument_ctor (Npos a) folder).
    destruct (fst (exec _ (sdk w))); split; reflexivity.
  - rewrite make_reader_run, new_nothrow_run.
    destruct (allocate _ (heap w)) as [[a h]|]; cbn; [|left; now split].
    right.
    exists unit, (DataReader_ctor (Npos a) path debugOutput decodeSpectra).
    destruct (fst (exec _ (sdk w))); split; reflexivity.
  - destruct dr as [|a]; [left; now split|].
    unfold free_reader. rewrite delete_run. cbn.
    right. exists unit, (DataReader_dtor (Npos a)).
    destruct (fst (exec _ (sdk w))); split; reflexivity.
Qed.

(** X2.  Exceptions pass through the shim unaltered, both ways.  One
    that leaves an export is either the [std::bad_alloc] of a refused
    allocation, raised before any vendor code ran and with the world
    untouched, or the very exception the one vendor call of the log threw.
    And whenever a vendor call made by an export threw, that exception
    does leave the export: none is swallowed or replaced. *)
Theorem exceptions_leaving_an_export R (e : Exported R) (w : World)
    (ex : exception) :
  (outcome_of (invoke e w) = Throws ex ->
   (ex = std_bad_alloc
    /\ invoke e w = mkResult (Throws std_bad_alloc) w []
    /\ exists size, out_of_memory size w)
   \/ exists R' (c : VendorCall R'),
        calls_of (invoke e w) = [log_of c]
        /\ fst (exec c (sdk w)) = Throws ex)
  /\ (forall l,
        In l (calls_of (invoke e w)) ->
        sdk_threw l (sdk w) ex ->
        outcome_of (invoke e w) = Throws ex).
Proof.
  split.
  - by_row e Hrow.
    + intros H. right. exists R, c. now split.
    + rewrite usb_instrument_run, factory_run. unfold out_of_memory.
      destruct (allocate _ (heap w)) as [[a h]|] eqn:Ha; cbn.
      * destruct (fst (exec _ (sdk w))) eqn:Hx; cbn; intros [= <-].
        right. exists unit, (USBInstrument_ctor (Npos a)). now split.
      * intros [= <-]. left. split; [reflexivity|]. split; [reflexivity|].
        now exists sizeof_USBInstrument.
    + rewrite simulated_instrument_run, factory_run. unfold out_of_memory.
      destruct (allocate _ (heap w)) as [[a h]|] eqn:Ha; cbn.
      * destruct (fst (exec _ (sdk w))) eqn:Hx; cbn; intros [= <-].
        right. exists unit, (SimulatedInstrument_ctor (Npos a) folder).
        now split.
      * intros [= <-]. left. split; [reflexivity|]. split; [reflexivity|].
        now exists sizeof_SimulatedInstrument.
    + rewrite make_reader_run, new_nothrow_run.
      destruct (allocate _ (heap w)) as [[a h]|] eqn:Ha; cbn;
        [|discriminate].
      destruct (fst (exec _ (sdk w))) eqn:Hx; cbn; intros [= <-].
      right.
      exists unit, (DataReader_ctor (Npos a) path debugOutput decodeSpectra).
      now split.
    + destruct dr as [|a]; [discriminate|].
      unfold free_reader. rewrite delete_run. cbn.
      destruct (fst (exec _ (sdk w))) eqn:Hx; cbn; intros [= <-].
      right. exists unit, (DataReader_dtor (Npos a)). now split.
  - unfold sdk_threw. by_row e Hrow.
    + intros l [<-|[]] H. exact H.
    + rewrite usb_instrument_run, factory_run.
      destruct (allocate _ (heap w)) as [[a h]|]; cbn; [|intros l []].
      destruct (fst (exec _ (sdk w))) eqn:Hx; cbn;
        intros l [<-|[]] H; cbn in H; rewrite Hx in H; congruence.
    + rewrite simulated_instrument_run, factory_run.
      destruct (allocate _ (heap w)) as [[a h]|]; cbn; [|intros l []].
      destruct (fst (exec _ (sdk w))) eqn:Hx; cbn;
        intros l [<-|[]] H; cbn in H; rewrite Hx in H; congruence.
    + rewrite make_reader_run, new_nothrow_run.
      destruct (allocate _ (heap w)) as [[a h]|]; cbn; [|intros l []].
      destruct (fst (exec _ (sdk w))) eqn:Hx; cbn;
        intros l [<-|[]] H; cbn in H; rewrite Hx in H; congruence.
    + destruct dr as [|a]; [intros l []|].
      unfold free_reader. rewrite delete_run. cbn.
      destruct (fst (exec _ (sdk w))) eqn:Hx; cbn;
        intros l [<-|[]] H; cbn in H; rewrite Hx in H; congruence.
Qed.


(** X5.  When the constructor throws, no factory leaks: the block it had
    just taken goes back to the allocator, the vendor state is what the
    failed constructor left, and the caller gets the constructor's own
    exception -- from [make_reader] too, whose [std::nothrow] covers the
    allocation only. *)
Theorem constructor_failure_releases_storage :
  (forall w a h ex,
      allocate sizeof_USBInstrument (heap w) = Some (a, h) ->
      fst (exec (USBInstrument_ctor (Npos a)) (sdk w)) = Throws ex ->
      usb_instrument w
      = mkResult (Throws ex)
          (mkWorld (deallocate a h)
             (snd (exec (USBInstrument_ctor (Npos a)) (sdk w))))
          [log_of (USBInstrument_ctor (Npos a))])
  /\ (forall folder w a h ex,
        allocate sizeof_SimulatedInstrument (heap w) = Some (a, h) ->
        fst (exec (SimulatedInstrument_ctor (Npos a) folder) (sdk w))
        = Throws ex ->
        simulated_instrument folder w
        = mkResult (Throws ex)
            (mkWorld (deallocate a h)
               (snd (exec (SimulatedInstrument_ctor (Npos a) folder)
                       (sdk w))))
            [log_of (SimulatedInstrument_ctor (Npos a) folder)])
  /\ (forall path debugOutput decodeSpectra w a h ex,
        allocate sizeof_DataReader (heap w) = Some (a, h) ->
        fst (exec (DataReader_ctor (Npos a) path debugOutput decodeSpectra)
               (sdk w)) = Throws ex ->
        make_reader path debugOutput decodeSpectra w
        = mkResult (Throws ex)
            (mkWorld (deallocate a h)
               (snd (exec (DataReader_ctor (Npos a) path
                             debugOutput decodeSpectra) (sdk w))))
            [log_of (DataReader_ctor (Npos a) path
                       debugOutput decodeSpectra)]).
Proof.
  split; [|split].
  - intros w a h ex Ha Hx.
    rewrite usb_instrument_run, factory_run, Ha. cbn. now rewrite Hx.
  - intros folder w a h ex Ha Hx.
    rewrite simulated_instrument_run, factory_run, Ha. cbn. now rewrite Hx.
  - intros path d s w a h ex Ha Hx.
    rewrite make_reader_run, new_nothrow_run, Ha. cbn. now rewrite Hx.
Qed.

Lemma make_reader_returns (path : c_str) (d s : bool) (w : World)
    (a : positive) (h : Heap) :
  allocate sizeof_DataReader (heap w) = Some (a, h) ->
  fst (exec (DataReader_ctor (Npos a) path d s) (sdk w)) = Returns tt ->
  make_reader path d s w
  = mkResult (Returns (Npos a))
      (mkWorld h (snd (exec (DataReader_ctor (Npos a) path d s) (sdk w))))
      [log_of (DataReader_ctor (Npos a) path d s)].
Proof.
  intros Ha Hx. rewrite make_reader_run, new_nothrow_run, Ha. cbn.
  now rewrite Hx.
Qed.

Lemma free_reader_returns (a : positive) (w : World) :
  fst (exec (DataReader_dtor (Npos a)) (sdk w)) = Returns tt ->
  free_reader (Npos a) w
  = mkResult (Returns tt)
      (mkWorld (deallocate a (heap w))
         (snd (exec (DataReader_dtor (Npos a)) (sdk w))))
      [log_of (DataReader_dtor (Npos a))].
Proof.
  intros Hx. unfold free_reader. rewrite delete_run. cbn. now rewrite Hx.
Qed.

(** X6.  Opening and closing pair up.  Out of memory, [make_reader]
    followed by [free_reader] on its (null) result does nothing at all.
    Otherwise, when constructor and destructor return, the destructor runs
    on exactly the storage the constructor ran on, on the vendor state the
    constructor left, and exactly that block is released. *)
Theorem make_reader_then_free_reader
    (path : c_str) (debugOutput decodeSpectra : bool) (w : World) :
  (out_of_memory sizeof_DataReader w ->
   bind (make_reader path debugOutput decodeSpectra) free_reader w
   = mkResult (Returns tt) w [])
  /\ (forall a h,
        allocate sizeof_DataReader (heap w) = Some (a, h) ->
        let opened :=
          exec (DataReader_ctor (Npos a) path debugOutput decodeSpectra)
               (sdk w) in
        let closed := exec (DataReader_dtor (Npos a)) (snd opened) in
        fst opened = Returns tt ->
        fst closed = Returns tt ->
        bind (make_reader path debugOutput decodeSpectra) free_reader w
        = mkResult (Returns tt)
            (mkWorld (deallocate a h) (snd closed))
            [log_of (DataReader_ctor (Npos a) path
                       debugOutput decodeSpectra);
             log_of (DataReader_dtor (Npos a))]).
Proof.
  split.
  - intros H. unfold bind. now rewrite (make_reader_out_of_memory _ _ _ H).
  - intros a h Ha opened closed Ho Hc. subst opened closed.
    unfold bind. rewrite (make_reader_returns _ _ _ _ Ha Ho).
    cbn [outcome_of world_of calls_of].
    now rewrite (free_reader_returns a (mkWorld h _) Hc).
Qed.

(** X7.  Nothing in the shim remembers that a reader was closed.  After
    [make_reader] has returned a live handle and [free_reader] has closed
    it, a second [free_reader] on the same handle is not stopped: the
    destructor is called on the stale pointer once more.  (What the SDK
    and the allocator make of that is theirs to say; only the calls are
    stated.) *)
Theorem second_free_reader_destroys_again
    (path : c_str) (debugOutput decodeSpectra : bool) (w : World)
    (a : positive) (h : Heap) :
  allocate sizeof_DataReader (heap w) = Some (a, h) ->
  let opened :=
    exec (DataReader_ctor (Npos a) path debugOutput decodeSpectra) (sdk w) in
  let closed := exec (DataReader_dtor (Npos a)) (snd opened) in
  fst opened = Returns tt ->
  fst closed = Returns tt ->
  calls_of
    (bind (make_reader path debugOutput decodeSpectra)
       (fun dr => bind (free_reader dr) (fun _ => free_reader dr)) w)
  = [log_of (DataReader_ctor (Npos a) path debugOutput decodeSpectra);
     log_of (DataReader_dtor (Npos a));
     log_of (DataReader_dtor (Npos a))].
Proof.
  intros Ha opened closed Ho Hc. subst opened closed.
  unfold bind. rewrite (make_reader_returns _ _ _ _ Ha Ho).
  cbn [outcome_of world_of calls_of].
  rewrite (free_reader_returns a (mkWorld h _) Hc).
  cbn [outcome_of world_of calls_of].
  unfold free_reader. rewrite delete_run. cbn.
  destruct (fst (exec _ (snd (exec _ (snd _))))); reflexivity.
Qed.

(** X8.  A dialogue made of exports that have a row in the table is
    transparent.  The values the caller gets back, the final vendor state
    and the calls the SDK received are those of making the table's vendor
    calls, in the same order, on the SDK itself; and the dialogue ends
    where the SDK first throws or crashes, and nowhere else. *)
Theorem dialogue_is_transparent (script : list any_export)
    (cs : list logged) :
  table_rows script = Some cs ->
  forall w,
    dialogue script w =
    let '(o, s', l) := direct cs (sdk w) in
    mkResult o (mkWorld (heap w) s') l.
Proof.
  revert cs. induction script as [|[R e] rest IH]; intros cs H w;
    cbn in H.
  - injection H as <-. destruct w; reflexivity.
  - destruct (forwarding_table e) as [c|] eqn:Hrow; [|discriminate].
    destruct (table_rows rest) as [cs'|] eqn:Hrest; [|discriminate].
    injection H as <-.
    cbn [dialogue direct log_of]. unfold bind at 1.
    rewrite (invoke_forwarded e Hrow). cbn.
    destruct (fst (exec c (sdk w))) as [v|ex|]; cbn; try reflexivity.
    rewrite bind_ret_run, (IH cs' eq_refl). cbn.
    destruct (direct cs' (snd (exec c (sdk w)))) as [[o s'] l].
    destruct o; reflexivity.
Qed.

(** X9.  A session of [n] exported calls, lifetime exports included,
    makes at most [n] vendor calls. *)
Theorem session_never_amplifies (script : list any_export) (w : World) :
  List.length (calls_of (session script w)) <= List.length script.
Proof.
  revert w. induction script as [|[R e] rest IH]; intros w;
    [cbn; lia|].
  cbn [session List.length]. unfold bind.
  pose proof (invoke_calls_bound e w) as He.
  destruct (outcome_of (invoke e w)); cbn; try lia.
  rewrite length_app. specialize (IH (world_of (invoke e w))). lia.
Qed.

(** X10.  The null handle that [make_reader] returns when memory is out
    is not stopped anywhere: passed on to any export that has a row in the
    table, it reaches the SDK as that call's argument, and the outcome is
    whatever the SDK makes of it.  Only [free_reader] treats null
    specially. *)
Theorem null_reader_reaches_the_sdk R (next_call : ptr -> Exported R)
    (c : VendorCall R) (path : c_str) (debugOutput decodeSpectra : bool)
    (w : World) :
  forwarding_table (next_call nullptr) = Some c ->
  out_of_memory sizeof_DataReader w ->
  bind (make_reader path debugOutput decodeSpectra)
       (fun dr => invoke (next_call dr)) w
  = forwarded c w.
Proof.
  intros Hrow Hmem. unfold bind.
  rewrite (make_reader_out_of_memory _ _ _ Hmem).
  cbn [outcome_of world_of calls_of].
  now rewrite (invoke_forwarded _ Hrow).
Qed.

End EveryExport.

(* ------------------------------------------------------------------ *)
(** ** The further properties on the two doubles *)
(* ------------------------------------------------------------------ *)

Lemma exceptions_leaving_an_export_witness :
  outcome_of (invoke (V := detached_sdk) (RT := bench_runtime)
                call_usb_instrument detached)
  = Throws (sdk_exception "no instrument on the bus")
  /\ ((sdk_exception "no instrument on the bus" = std_bad_alloc
       /\ invoke (V := detached_sdk) (RT := bench_runtime)
            call_usb_instrument detached
          = mkResult (Throws std_bad_alloc) detached []
       /\ exists size, out_of_memory size detached)
      \/ exists R' (c : VendorCall R'),
           calls_of (invoke (V := detached_sdk) (RT := bench_runtime)
                       call_usb_instrument detached) = [log_of c]
           /\ fst (exec (SDK := detached_sdk) c (sdk detached))
              = Throws (sdk_exception "no instrument on the bus"))
  /\ In (log_of (DataReader_ctor 4096%N "missing.datx"%string false false))
        (calls_of (run (call_make_reader "missing.datx"%string false false)
                     roomy_strict))
  /\ sdk_threw (V := bench_sdk)
       (log_of (DataReader_ctor 4096%N "missing.datx"%string false false))
       (sdk roomy_strict) (sdk_exception "file not found")
  /\ outcome_of (run (call_make_reader "missing.datx"%string false false)
                   roomy_strict)
     = Throws (sdk_exception "file not found").
Proof.
  split; [reflexivity|].
  split.
  - apply (proj1 (@exceptions_leaving_an_export bench_types detached_sdk
                    bench_runtime _ call_usb_instrument detached _)).
    reflexivity.
  - split; [left; reflexivity|].
    split; [reflexivity|].
    apply (proj2 (@exceptions_leaving_an_export bench_types bench_sdk
                    bench_runtime _
                    (call_make_reader "missing.datx"%string false false)
                    roomy_strict (sdk_exception "file not found"))
             (log_of (DataReader_ctor 4096%N "missing.datx"%string
                        false false)));
      [left; reflexivity | reflexivity].
Defined.


Lemma constructor_failure_releases_storage_witness :
  run (call_make_reader "missing.datx"%string false false) roomy_strict
  = mkResult (Throws (sdk_exception "file not found"))
      (mkWorld (V := bench_sdk) (RT := bench_runtime)
         (mkArena 4225 65408 []) (sdk roomy_strict))
      [log_of (DataReader_ctor 4096%N "missing.datx"%string false false)]
  /\ invoke (V := detached_sdk) (RT := bench_runtime)
       call_usb_instrument detached
     = mkResult (Throws (sdk_exception "no instrument on the bus"))
         (mkWorld (V := detached_sdk) (RT := bench_runtime)
            (mkArena 4161 65472 []) (sdk detached))
         [log_of (USBInstrument_ctor 4096%N)]
  /\ invoke (V := detached_sdk) (RT := bench_runtime)
       (call_simulated_instrument "recorded"%string) detached
     = mkResult (Throws (sdk_exception "no recording in folder"))
         (mkWorld (V := detached_sdk) (RT := bench_runtime)
            (mkArena 4193 65440 []) (sdk detached))
         [log_of (SimulatedInstrument_ctor 4096%N "recorded"%string)].
Proof.
  split; [|split].
  - apply (proj2 (proj2 (@constructor_failure_releases_storage
                           bench_types bench_sdk bench_runtime))
             "missing.datx"%string false false roomy_strict
             4096%positive (mkArena 4225 65408 [4096%positive]));
      reflexivity.
  - apply (proj1 (@constructor_failure_releases_storage
                    bench_types detached_sdk bench_runtime)
             detached 4096%positive (mkArena 4161 65472 [4096%positive]));
      reflexivity.
  - apply (proj1 (proj2 (@constructor_failure_releases_storage
                           bench_types detached_sdk bench_runtime))
             "recorded"%string detached
             4096%positive (mkArena 4193 65440 [4096%positive]));
      reflexivity.
Defined.

Lemma make_reader_then_free_reader_witness :
  bind (make_reader (V := bench_sdk) (RT := bench_runtime)
          "run1.datx"%string false false) free_reader exhausted
  = mkResult (Returns tt) exhausted []
  /\ bind (make_reader (V := bench_sdk) (RT := bench_runtime)
             "run1.datx"%string false false) free_reader roomy
     = mkResult (Returns tt)
         (mkWorld (V := bench_sdk) (RT := bench_runtime)
            (mkArena 4225 65408 []) (sdk roomy))
         [log_of (DataReader_ctor 4096%N "run1.datx"%string false false);
          log_of (DataReader_dtor 4096%N)].
Proof.
  split.
  - apply (proj1 (@make_reader_then_free_reader
                    bench_types bench_sdk bench_runtime
                    "run1.datx"%string false false exhausted)).
    reflexivity.
  - apply (proj2 (@make_reader_then_free_reader
                    bench_types bench_sdk bench_runtime
                    "run1.datx"%string false false roomy)
             4096%positive (mkArena 4225 65408 [4096%positive]));
      reflexivity.
Defined.

Lemma second_free_reader_destroys_again_witness :
  allocate (Runtime := bench_runtime)
    (@sizeof_DataReader _ bench_sdk) (heap roomy)
  = Some (4096%positive, mkArena 4225 65408 [4096%positive])
  /\ calls_of
       (bind (make_reader (V := bench_sdk) (RT := bench_runtime)
                "run1.datx"%string false false)
          (fun dr => bind (free_reader dr) (fun _ => free_reader dr)) roomy)
     = [log_of (DataReader_ctor 4096%N "run1.datx"%string false false);
        log_of (DataReader_dtor 4096%N);
        log_of (DataReader_dtor 4096%N)].
Proof.
  split; [reflexivity|].
  apply (@second_free_reader_destroys_again
           bench_types bench_sdk bench_runtime
           "run1.datx"%string false false roomy
           4096%positive (mkArena 4225 65408 [4096%positive]));
    reflexivity.
Defined.

Lemma dialogue_is_transparent_witness :
  table_rows (T := bench_types)
    [pack call_can_vent; pack call_vent;
     pack (call_set_tune_parameters "<t/>"%string);
     pack call_get_tune_parameters]
  = Some [log_of InstrumentController_canVent;
          log_of InstrumentController_vent;
          log_of (InstrumentController_setTuneParameters "<t/>"%string);
          log_of InstrumentController_getTuneParameters]
  /\ dialogue (V := bench_sdk) (RT := bench_runtime)
       [pack call_can_vent; pack call_vent;
        pack (call_set_tune_parameters "<t/>"%string);
        pack call_get_tune_parameters] roomy
     = let '(o, s', l) :=
         direct (V := bench_sdk)
           [log_of InstrumentController_canVent;
            log_of InstrumentController_vent;
            log_of (InstrumentController_setTuneParameters "<t/>"%string);
            log_of InstrumentController_getTuneParameters] (sdk roomy) in
       mkResult o (mkWorld (heap roomy) s') l.
Proof.
  split; [reflexivity|].
  apply (@dialogue_is_transparent bench_types bench_sdk bench_runtime).
  reflexivity.
Defined.

Lemma null_reader_reaches_the_sdk_witness :
  bind (make_reader (V := bench_sdk) (RT := bench_runtime)
          "run1.datx"%string false false)
       (fun dr => invoke (call_num_spectra dr)) exhausted
  = forwarded (DataReader_getNumSpectra nullptr) exhausted.
Proof.
  apply (@null_reader_reaches_the_sdk bench_types bench_sdk bench_runtime
           c_int call_num_spectra);
    reflexivity.
Defined.
